(** * Packaging manifest of immutablex-starknet ([setup.py])

    The repository's only source is a setuptools manifest: one import and
    one call of [setup] with keyword arguments.  We embed the Python module
    as a small statement AST, the keyword call as an association list from
    keyword to Python value, and the effect of [setup] as the package
    descriptor it records. *)

From Stdlib Require Import String Ascii List Bool Arith Lia.
Import ListNotations.
Open Scope string_scope.
Set Warnings "-register-all".

Module Setup.

(** ** Python values and statements occurring in a manifest *)

Inductive pyval : Type :=
| VStr (s : string)
| VBool (b : bool)
| VList (l : list pyval).

(** The statement forms of a Python module, including those (definitions
    and control flow) a manifest could contain. *)
Inductive stmt : Type :=
| SImportFrom (modname : string) (names : list string)
| SCall (fn : string) (kwargs : list (string * pyval))
| SFunctionDef (fname : string) (body : list stmt)
| SClassDef (cname : string) (body : list stmt)
| SIf (body : list stmt) (orelse : list stmt)
| SFor (body : list stmt)
| SWhile (body : list stmt).

(** ** The source, line by line (src/setup.py) *)

Definition q : string := String (ascii_of_nat 39) EmptyString.

Definition source_lines : list string :=
  [ "from setuptools import setup";
    "";
    "setup(";
    "    name=" ++ q ++ "immutablex-starknet" ++ q ++ ",";
    "    version=" ++ q ++ "0.1.0" ++ q ++ ",";
    "    description=" ++ q ++ "Immutable X StarkNet Contracts" ++ q ++ ",";
    "    url=" ++ q ++ q ++ ",";
    "    author=" ++ q ++ "Immutable" ++ q ++ ",";
    "    license=" ++ q ++ "Apache-2.0" ++ q ++ ",";
    "    packages=[" ++ q ++ "immutablex" ++ q ++ "],";
    "    include_package_data=True,";
    "    install_requires=[";
    "        " ++ q ++ "openzeppelin-cairo-contracts" ++ q ++ ",";
    "        " ++ q ++ "cairolib" ++ q;
    "    ],";
    ")" ].

Definition newline : string := String (ascii_of_nat 10) EmptyString.

(** The file's bytes: the lines joined by newlines (no trailing newline). *)
Definition source_text : string := String.concat newline source_lines.

(** ** The module as an AST *)

Definition setup_kwargs : list (string * pyval) :=
  [ ("name", VStr "immutablex-starknet");
    ("version", VStr "0.1.0");
    ("description", VStr "Immutable X StarkNet Contracts");
    ("url", VStr "");
    ("author", VStr "Immutable");
    ("license", VStr "Apache-2.0");
    ("packages", VList [VStr "immutablex"]);
    ("include_package_data", VBool true);
    ("install_requires",
       VList [VStr "openzeppelin-cairo-contracts"; VStr "cairolib"]) ].

Definition setup_py : list stmt :=
  [ SImportFrom "setuptools" ["setup"];
    SCall "setup" setup_kwargs ].

(** ** The descriptor recorded by [setup] *)

Record descriptor : Type := mkDescriptor {
  name : string;
  version : string;
  description : string;
  url : string;
  author : string;
  license : string;
  packages : list string;
  include_package_data : bool;
  install_requires : list string
}.

Fixpoint kw_lookup (k : string) (kws : list (string * pyval)) : option pyval :=
  match kws with
  | [] => None
  | (k', v) :: rest => if String.eqb k k' then Some v else kw_lookup k rest
  end.

Definition as_str (v : pyval) : option string :=
  match v with VStr s => Some s | _ => None end.

Definition as_bool (v : pyval) : option bool :=
  match v with VBool b => Some b | _ => None end.

Fixpoint as_str_list (l : list pyval) : option (list string) :=
  match l with
  | [] => Some []
  | v :: rest =>
      match as_str v, as_str_list rest with
      | Some s, Some ss => Some (s :: ss)
      | _, _ => None
      end
  end.

Definition as_strs (v : pyval) : option (list string) :=
  match v with VList l => as_str_list l | _ => None end.

Definition kw_str (k : string) (kws : list (string * pyval)) : option string :=
  match kw_lookup k kws with Some v => as_str v | None => None end.

Definition kw_bool (k : string) (kws : list (string * pyval)) : option bool :=
  match kw_lookup k kws with Some v => as_bool v | None => None end.

Definition kw_strs (k : string) (kws : list (string * pyval)) : option (list string) :=
  match kw_lookup k kws with Some v => as_strs v | None => None end.

(** [setup] called with keyword arguments: the descriptor built from them
    (fails when a keyword is missing or of the wrong Python type). *)
Definition setup (kws : list (string * pyval)) : option descriptor :=
  match kw_str "name" kws, kw_str "version" kws, kw_str "description" kws,
        kw_str "url" kws, kw_str "author" kws, kw_str "license" kws,
        kw_strs "packages" kws, kw_bool "include_package_data" kws,
        kw_strs "install_requires" kws with
  | Some n, Some v, Some d, Some u, Some a, Some l, Some p, Some i, Some r =>
      Some (mkDescriptor n v d u a l p i r)
  | _, _, _, _, _, _, _, _, _ => None
  end.

(** Running the module: imports bind names, a call of an imported [setup]
    records a descriptor (the last one wins). *)
Fixpoint run (imported : list string) (acc : option descriptor)
    (body : list stmt) : option descriptor :=
  match body with
  | [] => acc
  | SImportFrom _ names :: rest => run (names ++ imported) acc rest
  | SCall fn kws :: rest =>
      if existsb (String.eqb fn) imported && String.eqb fn "setup"
      then run imported (setup kws) rest
      else run imported acc rest
  | _ :: rest => run imported acc rest
  end.

Definition manifest : option descriptor := run [] None setup_py.

(** ** Structural predicates on the module *)

Definition is_setup_call (s : stmt) : bool :=
  match s with SCall fn _ => String.eqb fn "setup" | _ => false end.

Definition is_call (s : stmt) : bool :=
  match s with SCall _ _ => true | _ => false end.

Definition is_definition_or_control (s : stmt) : bool :=
  match s with
  | SFunctionDef _ _ | SClassDef _ _ | SIf _ _ | SFor _ | SWhile _ => true
  | _ => false
  end.

(** ** Predicates on descriptor fields *)

Definition identity_fields (d : descriptor) : list string :=
  [name d; version d; description d; url d; author d; license d].

Definition nonempty (s : string) : bool := negb (String.eqb s "").

(** A character allowed in a bare distribution name: letters, digits,
    [-], [_] and [.]; every version specifier ([<], [>], [=], [!], [~]),
    marker ([;]), extra ([[]) or URL ([@]) needs another character. *)
Definition is_name_char (c : ascii) : bool :=
  let n := nat_of_ascii c in
  (Nat.leb 65 n && Nat.leb n 90) || (Nat.leb 97 n && Nat.leb n 122) ||
  (Nat.leb 48 n && Nat.leb n 57) ||
  Nat.eqb n 45 || Nat.eqb n 95 || Nat.eqb n 46.

Definition bare_identifier (s : string) : bool :=
  nonempty s && forallb is_name_char (list_ascii_of_string s).

Fixpoint nodupb (l : list string) : bool :=
  match l with
  | [] => true
  | x :: rest => negb (existsb (String.eqb x) rest) && nodupb rest
  end.

(** ** Sanity checks of the embedding *)

(** The reconstructed file has the 352 bytes of src/setup.py. *)
Example source_text_length : String.length source_text = 352%nat.
Proof. reflexivity. Qed.

Example setup_missing_keyword : setup (tl setup_kwargs) = None.
Proof. reflexivity. Qed.

Example run_without_import : run [] None [SCall "setup" setup_kwargs] = None.
Proof. reflexivity. Qed.

(** ** Helper lemmas *)

Lemma nodupb_NoDup (l : list string) : nodupb l = true -> NoDup l.
Proof.
  induction l as [|x rest IH]; simpl; intro H.
  - constructor.
  - apply andb_prop in H as [Hx Hrest].
    constructor; [|exact (IH Hrest)].
    intro Hin. apply negb_true_iff in Hx.
    assert (existsb (String.eqb x) rest = true) as Hex.
    { apply existsb_exists. exists x. split; [exact Hin | apply String.eqb_refl]. }
    congruence.
Qed.

(** ** Claims *)

(** C1: the descriptor recorded by the manifest declares exactly two
    dependencies, [openzeppelin-cairo-contracts] and [cairolib]. *)
Theorem install_requires_exact :
  exists d, manifest = Some d /\
    length (install_requires d) = 2%nat /\
    install_requires d = ["openzeppelin-cairo-contracts"; "cairolib"].
Proof. eexists; split; [reflexivity | split; reflexivity]. Qed.

(** C2 (as stated, refuted): not every identity field of the descriptor
    is a non-empty string; [url] is the empty string. *)
Lemma identity_fields_not_all_nonempty :
  ~ (exists d, manifest = Some d /\
       forallb nonempty (identity_fields d) = true).
Proof.
  intros [d [Hd Hall]]. injection Hd as <-. discriminate Hall.
Qed.

(** C2 (amended): name, version, description, author and license are
    non-empty strings, and url is the empty string. *)
Theorem identity_fields_nonempty_except_url :
  exists d, manifest = Some d /\
    forallb nonempty [name d; version d; description d; author d; license d]
      = true /\
    url d = "".
Proof. eexists; split; [reflexivity | split; reflexivity]. Qed.

(** C3: the descriptor declares exactly one package namespace. *)
Theorem packages_single :
  exists d, manifest = Some d /\ length (packages d) = 1%nat.
Proof. eexists; split; reflexivity. Qed.

(** C4: the declared license is [Apache-2.0]. *)
Theorem license_apache :
  exists d, manifest = Some d /\ license d = "Apache-2.0".
Proof. eexists; split; reflexivity. Qed.

(** C5: the declared version is [0.1.0]. *)
Theorem version_0_1_0 :
  exists d, manifest = Some d /\ version d = "0.1.0".
Proof. eexists; split; reflexivity. Qed.

(** C6: every declared dependency is a bare distribution name, made only of
    letters, digits, [-], [_] and [.], so it carries no version specifier. *)
Theorem install_requires_unpinned :
  exists d, manifest = Some d /\
    install_requires d <> [] /\
    forallb bare_identifier (install_requires d) = true.
Proof.
  eexists; split; [reflexivity | split; [discriminate | reflexivity]].
Qed.

(** C7: the source has exactly 16 lines; the module holds exactly one call,
    the call of [setup], beside it only an import, and no definition or
    control-flow statement. *)
Theorem source_single_setup_call :
  length source_lines = 16%nat /\
  length (filter is_call setup_py) = 1%nat /\
  length (filter is_setup_call setup_py) = 1%nat /\
  existsb is_definition_or_control setup_py = false /\
  forallb (fun s => is_setup_call s ||
                    match s with SImportFrom _ _ => true | _ => false end)
          setup_py = true.
Proof. repeat split. Qed.

(** C8: neither the package list nor the dependency list contains a
    duplicate entry. *)
Theorem package_and_dependency_lists_nodup :
  exists d, manifest = Some d /\
    NoDup (packages d) /\ NoDup (install_requires d).
Proof.
  eexists; split; [reflexivity|].
  split; apply nodupb_NoDup; reflexivity.
Qed.

(** C9: [include_package_data] is set to [True]. *)
Theorem include_package_data_true :
  exists d, manifest = Some d /\ include_package_data d = true.
Proof. eexists; split; reflexivity. Qed.

(** C10: the remaining identity fields have these exact values. *)
Theorem identity_field_values :
  exists d, manifest = Some d /\
    name d = "immutablex-starknet" /\
    description d = "Immutable X StarkNet Contracts" /\
    author d = "Immutable" /\
    url d = "".
Proof. eexists; split; [reflexivity | repeat split]. Qed.

End Setup.
